(** * generate_icons.py: favicon and app icons from one SVG source

    A shallow embedding of [generate_icons.py] and the properties of its
    specification that can be stated over it.

    The script is glue code around two imaging libraries and the file
    system, so the embedding is a state-and-exception monad over an explicit
    [world]: the files of the working directory, the Python modules that can
    be imported, and a log of everything the script does that can be observed
    from outside (lines printed, library calls, files opened for writing).
    The libraries themselves (cairosvg, Pillow, the shell behind
    [os.system]) are not part of the repository: they are the fields of the
    class [Platform], and every statement below holds for all of them unless
    it says otherwise. *)

From stdpp Require Import gmap strings list pretty sorting.
From Stdlib.Strings Require Import Byte Ascii.

Open Scope Z_scope.
Open Scope string_scope.

(** ** Python values and exceptions *)

(** The exceptions the script can meet.  [ImportError] also stands for its
    subclass [ModuleNotFoundError]; the [except ImportError] clause of the
    script catches exactly this constructor. *)
Inductive exn : Type :=
  | ImportError (name : string)
  | FileNotFoundError (path : string)
  | OtherError (what : string).

Inductive outcome (A : Type) : Type :=
  | Return (a : A)
  | Raise (e : exn).
Arguments Return {A} a.
Arguments Raise {A} e.

Definition is_ImportError (e : exn) : bool :=
  match e with ImportError _ => true | _ => false end.

(** A decoded raster image, as [PIL.Image.open] returns it: its [size]
    attribute (width, height) and its pixel payload. *)
Record image : Type := Image { im_size : Z * Z; im_pixels : list byte }.

(** ** The world *)

Inductive event : Type :=
  | Stdout (line : string)
  | Imported (name : string)
  | OsSystem (command : string)
  | Svg2png (url : string) (output_width output_height : Z)
  | OpenWb (path : string)
  | ImageOpen (path : string)
  | ImageSave (im : image) (path format : string)
              (sizes : list (Z * Z)) (append_images : list image).

(** [files]: the working directory.  [site]: the modules that are
    installed, each with what loading it does.  [loaded]: the modules already
    loaded ([sys.modules]).  [log]: what the run has done so far. *)
Record world : Type := World {
  files : gmap string (list byte);
  site : gmap string (outcome unit);
  loaded : gset string;
  log : list event
}.

Definition set_files (f : gmap string (list byte)) (w : world) : world :=
  World f (site w) (loaded w) (log w).
Definition set_site (s : gmap string (outcome unit)) (w : world) : world :=
  World (files w) s (loaded w) (log w).
Definition emit (e : event) (w : world) : world :=
  World (files w) (site w) (loaded w) (log w ++ [e])%list.

(** ** The libraries the script calls *)

Class Platform : Type := {
  (** cairosvg's renderer: the PNG bytes for an SVG document at the
      requested output width and height, or the exception it raises. *)
  svg_render : list byte -> Z -> Z -> outcome (list byte);
  (** Pillow's reader: the image found in the bytes of a file. *)
  image_decode : list byte -> outcome image;
  (** Pillow's ICO writer: the bytes of the container for a primary image,
      the [sizes] option and the [append_images] option. *)
  ico_write : image -> list (Z * Z) -> list image -> outcome (list byte);
  (** The shell behind [os.system]: what a command does to the importable
      modules, and its exit status. *)
  shell : string -> gmap string (outcome unit) -> gmap string (outcome unit) * Z
}.

(** ** The monad: state passing with exceptions *)

Definition M (A : Type) : Type := world -> outcome A * world.

Definition ret {A} (a : A) : M A := fun w => (Return a, w).
Definition bind {A B} (m : M A) (k : A -> M B) : M B := fun w =>
  match m w with
  | (Return a, w') => k a w'
  | (Raise e, w') => (Raise e, w')
  end.

Declare Scope py_scope.
Delimit Scope py_scope with py.
Notation "x <- m ;; k" := (bind m (fun x => k))
  (at level 100, m at next level, right associativity) : py_scope.
Notation "m ;; k" := (bind m (fun _ => k))
  (at level 100, right associativity) : py_scope.
Open Scope py_scope.

(** [for x in xs: body(x)] *)
Fixpoint for_each {A} (xs : list A) (body : A -> M unit) : M unit :=
  match xs with
  | [] => ret tt
  | x :: rest => body x ;; for_each rest body
  end.

(** [try: body / except ImportError: handler] *)
Definition try_except_ImportError {A} (body handler : M A) : M A := fun w =>
  match body w with
  | (Raise e, w') => if is_ImportError e then handler w' else (Raise e, w')
  | r => r
  end.

(** ** Built-ins and library calls *)

Definition print (line : string) : M unit := fun w =>
  (Return tt, emit (Stdout line) w).

Definition os_path_exists (path : string) : M bool := fun w =>
  (Return (bool_decide (is_Some (files w !! path))), w).

Definition set_loaded (l : gset string) (w : world) : world :=
  World (files w) (site w) l (log w).

(** [import name]: a module that is already loaded is not looked up again;
    one that is not installed raises [ImportError]; an installed one may
    still raise while it loads, and is recorded as loaded when it does not. *)
Definition import_ (name : string) : M unit := fun w =>
  let w' := emit (Imported name) w in
  if bool_decide (name ∈ loaded w) then (Return tt, w')
  else
    match site w !! name with
    | None => (Raise (ImportError name), w')
    | Some (Return _) => (Return tt, set_loaded ({[name]} ∪ loaded w) w')
    | Some (Raise e) => (Raise e, w')
    end.

(** [open(path, 'wb')]: the file is created, or truncated if it exists. *)
Definition open_wb (path : string) : M string := fun w =>
  (Return path, emit (OpenWb path) (set_files (<[path := []]> (files w)) w)).

(** [f.write(data)] on a file opened by [open_wb]. *)
Definition file_write (f : string) (data : list byte) : M unit := fun w =>
  (Return tt, set_files (<[f := (default [] (files w !! f) ++ data)%list]> (files w)) w).

Section Script.
Context `{Platform}.

Definition os_system (command : string) : M Z := fun w =>
  let '(s, status) := shell command (site w) in
  (Return status, emit (OsSystem command) (set_site s w)).

(** [cairosvg.svg2png(url=..., output_width=..., output_height=...)]
    with no [write_to]: the document is read from [url] and the PNG
    bytes are returned. *)
Definition cairosvg_svg2png (url : string) (output_width output_height : Z)
  : M (list byte) := fun w =>
  (match files w !! url with
   | None => Raise (FileNotFoundError url)
   | Some svg => svg_render svg output_width output_height
   end, emit (Svg2png url output_width output_height) w).

(** [Image.open(path)] *)
Definition Image_open (path : string) : M image := fun w =>
  (match files w !! path with
   | None => Raise (FileNotFoundError path)
   | Some data => image_decode data
   end, emit (ImageOpen path) w).

(** [im.save(path, format='ICO', sizes=..., append_images=...)].  What a
    save that raises leaves at [path] differs between Pillow versions; the
    script never looks at it, and here the files are left as they were. *)
Definition Image_save (im : image) (path format : string)
    (sizes : list (Z * Z)) (append_images : list image) : M unit := fun w =>
  let w' := emit (ImageSave im path format sizes append_images) w in
  match ico_write im sizes append_images with
  | Return data => (Return tt, set_files (<[path := data]> (files w')) w')
  | Raise e => (Raise e, w')
  end.

(** ** The script *)

(** Lines 10-17: the imports and their fallback. *)
Definition imports : M unit :=
  import_ "cairosvg" ;;
  import_ "PIL".

Definition bootstrap : M unit :=
  try_except_ImportError
    imports
    (print "Installing required packages..." ;;
     _ <- os_system "pip3 install cairosvg pillow" ;;
     imports).

(** Lines 20-26.  A dict literal iterates in the order it is written, and
    the keys are distinct, so the table is the list of its items. *)
Definition SIZES : list (string * Z) :=
  [ ("favicon-16x16.png", 16);
    ("favicon-32x32.png", 32);
    ("apple-touch-icon.png", 180);
    ("android-chrome-192x192.png", 192);
    ("android-chrome-512x512.png", 512) ].

Definition generated_message (output_path : string) (size : Z) : string :=
  "✓ Generated " +:+ output_path +:+ " (" +:+ pretty size +:+ "x"
    +:+ pretty size +:+ ")".

(** Lines 28-39. *)
Definition generate_png_from_svg (svg_path output_path : string) (size : Z)
  : M unit :=
  png_data <- cairosvg_svg2png svg_path size size ;;
  f <- open_wb output_path ;;
  file_write f png_data ;;
  print (generated_message output_path size).

(** Lines 41-53. *)
Definition generate_ico (png_16_path png_32_path output_path : string)
  : M unit :=
  img_16 <- Image_open png_16_path ;;
  img_32 <- Image_open png_32_path ;;
  Image_save img_16 output_path "ICO" [(16, 16); (32, 32)] [img_32] ;;
  print ("✓ Generated " +:+ output_path).

Definition summary : list string :=
  [ String "010"%char "✅ All icons generated successfully!";
    String "010"%char "Generated files:" ]
  ++ ((fun filename => "  - " +:+ filename) <$> SIZES.*1)
  ++ [ "  - favicon.ico" ].

(** Lines 55-75. *)
Definition main : M unit :=
  let svg_path := "icon.svg" in
  found <- os_path_exists svg_path ;;
  if negb found then
    print ("Error: " +:+ svg_path +:+ " not found!")
  else
    print "Generating icons..." ;;
    for_each SIZES (fun '(filename, size) =>
      generate_png_from_svg svg_path filename size) ;;
    generate_ico "favicon-16x16.png" "favicon-32x32.png" "favicon.ico" ;;
    print (String "010"%char "✅ All icons generated successfully!") ;;
    print (String "010"%char "Generated files:") ;;
    for_each SIZES.*1 (fun filename => print ("  - " +:+ filename)) ;;
    print "  - favicon.ico".

(** The file run as a script: the module body, then [main()]. *)
Definition script : M unit :=
  bootstrap ;;
  main.

End Script.


(** ** What a run does, as data

    The script only ever adds to the world: it writes files, and it appends
    to the log.  An [effect] records the outcome of a piece of the script
    together with the files it wrote (in order, a later write of the same
    path wins) and the events it appended. *)

Record effect : Type := Effect {
  result : outcome unit;
  writes : list (string * list byte);
  trace : list event
}.

Definition write_all (ws : list (string * list byte))
    (m : gmap string (list byte)) : gmap string (list byte) :=
  foldl (fun m kv => <[kv.1 := kv.2]> m) m ws.

Definition after (e : effect) (w : world) : outcome unit * world :=
  (result e, World (write_all (writes e) (files w)) (site w) (loaded w)
               (log w ++ trace e)%list).

(** Sequencing: the second effect happens only if the first returned. *)
Definition and_then (e1 e2 : effect) : effect :=
  match result e1 with
  | Return _ => Effect (result e2) (writes e1 ++ writes e2)%list (trace e1 ++ trace e2)%list
  | Raise _ => e1
  end.

Definition done_ : effect := Effect (Return tt) [] [].
Definition say (lines : list string) : effect := Effect (Return tt) [] (Stdout <$> lines).

(** The content a list of writes leaves at [path], if it writes it. *)
Definition written (ws : list (string * list byte)) (path : string)
  : option (list byte) := write_all ws ∅ !! path.

(** The paths a run opened for writing, in order. *)
Definition written_paths (l : list event) : list string :=
  omap (fun e => match e with
                 | OpenWb path => Some path
                 | ImageSave _ path _ _ _ => Some path
                 | _ => None
                 end) l.

Definition is_OsSystem (e : event) : bool :=
  match e with OsSystem _ => true | _ => false end.
Definition is_ImageSave (e : event) : bool :=
  match e with ImageSave _ _ _ _ _ => true | _ => false end.

Section Effects.
Context `{Platform}.

Definition png_effect (svg_path : string) (svg : list byte)
    (entry : string * Z) : effect :=
  let '(output_path, size) := entry in
  match svg_render svg size size with
  | Return png_data =>
      Effect (Return tt) [(output_path, png_data)]
        [Svg2png svg_path size size; OpenWb output_path;
         Stdout (generated_message output_path size)]
  | Raise e => Effect (Raise e) [] [Svg2png svg_path size size]
  end.

Definition loop_effect (svg_path : string) (svg : list byte)
    (entries : list (string * Z)) : effect :=
  foldr (fun entry e => and_then (png_effect svg_path svg entry) e) done_ entries.

Definition ico_sizes : list (Z * Z) := [(16, 16); (32, 32)].

Definition ico_effect (png_16_path png_32_path output_path : string)
    (png_16 png_32 : option (list byte)) : effect :=
  match png_16 with
  | None => Effect (Raise (FileNotFoundError png_16_path)) [] [ImageOpen png_16_path]
  | Some data_16 =>
    match image_decode data_16 with
    | Raise e => Effect (Raise e) [] [ImageOpen png_16_path]
    | Return img_16 =>
      let opened := [ImageOpen png_16_path; ImageOpen png_32_path] in
      match png_32 with
      | None => Effect (Raise (FileNotFoundError png_32_path)) [] opened
      | Some data_32 =>
        match image_decode data_32 with
        | Raise e => Effect (Raise e) [] opened
        | Return img_32 =>
          let saved := (opened ++ [ImageSave img_16 output_path "ICO" ico_sizes [img_32]])%list in
          match ico_write img_16 ico_sizes [img_32] with
          | Raise e => Effect (Raise e) [] saved
          | Return data =>
              Effect (Return tt) [(output_path, data)]
                (saved ++ [Stdout ("✓ Generated " +:+ output_path)])%list
          end
        end
      end
    end
  end.

(** The values a run produces when its library calls return. *)
Definition value {A} (d : A) (o : outcome A) : A :=
  match o with Return a => a | Raise _ => d end.

Definition png_of (svg : list byte) (size : Z) : list byte :=
  value [] (svg_render svg size size).
Definition img_of (svg : list byte) (size : Z) : image :=
  value (Image (0, 0) []) (image_decode (png_of svg size)).
Definition ico_of (svg : list byte) : list byte :=
  value [] (ico_write (img_of svg 16) ico_sizes [img_of svg 32]).

Definition png_writes (svg : list byte) (entries : list (string * Z))
  : list (string * list byte) :=
  (fun '(filename, size) => (filename, png_of svg size)) <$> entries.

Definition png_trace (svg_path : string) (entries : list (string * Z))
  : list event :=
  entries ≫= (fun '(filename, size) =>
    [Svg2png svg_path size size; OpenWb filename;
     Stdout (generated_message filename size)]).

Definition ico_trace (svg : list byte) : list event :=
  [ImageOpen "favicon-16x16.png"; ImageOpen "favicon-32x32.png";
   ImageSave (img_of svg 16) "favicon.ico" "ICO" ico_sizes [img_of svg 32];
   Stdout "✓ Generated favicon.ico"].

(** The effect of a run of [main] in which no call raises. *)
Definition main_ok_effect (svg : list byte) : effect :=
  Effect (Return tt)
    (png_writes svg SIZES ++ [("favicon.ico", ico_of svg)])%list
    (Stdout "Generating icons..." :: png_trace "icon.svg" SIZES
       ++ ico_trace svg ++ (Stdout <$> summary))%list.

(** What [main] does, from the content of [icon.svg] alone. *)
Definition main_effect (icon : option (list byte)) : effect :=
  match icon with
  | None => say ["Error: icon.svg not found!"]
  | Some svg =>
      let pngs := loop_effect "icon.svg" svg SIZES in
      and_then (say ["Generating icons..."])
        (and_then pngs
          (and_then
            (ico_effect "favicon-16x16.png" "favicon-32x32.png" "favicon.ico"
               (written (writes pngs) "favicon-16x16.png")
               (written (writes pngs) "favicon-32x32.png"))
            (say summary)))
  end.

(** ** The conditions the specification speaks of *)

(** Every rasterization call of a run on [svg] succeeds. *)
Definition rasterizes (svg : list byte) : Prop :=
  forall name size, (name, size) ∈ SIZES ->
    exists png, svg_render svg size size = Return png.

(** The rasterization call for one entry of a table succeeds. *)
Definition renders (svg : list byte) (entry : string * Z) : Prop :=
  exists png, svg_render svg entry.2 entry.2 = Return png.

(** The packing calls of a run on [svg] succeed: both PNG files load and
    the ICO writer returns. *)
Definition packs (svg : list byte) : Prop :=
  forall png_16 png_32,
    svg_render svg 16 16 = Return png_16 ->
    svg_render svg 32 32 = Return png_32 ->
    exists img_16 img_32 ico,
      image_decode png_16 = Return img_16 /\
      image_decode png_32 = Return img_32 /\
      ico_write img_16 ico_sizes [img_32] = Return ico.

(** The pixel dimensions of a PNG file, as its reader reports them. *)
Definition png_size (data : list byte) : option (Z * Z) :=
  match image_decode data with
  | Return im => Some (im_size im)
  | Raise _ => None
  end.

(** The contract of the renderer, as far as the script relies on it: for
    each size of the table, its output has the width and the height it was
    asked for. *)
Definition renders_requested_size (svg : list byte) : Prop :=
  forall name size png,
    (name, size) ∈ SIZES ->
    svg_render svg size size = Return png ->
    png_size png = Some (size, size).

(** The steps the orchestration is made of: a rasterization call, the ICO
    save, a line of the summary. *)
Definition is_step (e : event) : bool :=
  match e with
  | Svg2png _ _ _ => true
  | ImageSave _ _ _ _ _ => true
  | Stdout line => bool_decide (line ∈ summary)
  | _ => false
  end.

End Effects.

(** The six output names, in the order they are written. *)
Definition OUTPUTS : list string := (SIZES.*1 ++ ["favicon.ico"])%list.

(** ** Pillow's ICO writer

    Pillow is not part of the repository.  This is the frame selection of
    its ICO plugin ([IcoImagePlugin._save], with [bitmap_format] left at
    its default), which decides what a saved container embeds: the
    requested sizes are sorted and deduplicated; a size wider or higher
    than the image being saved, or than 256, is skipped; for each size that
    is left, the first of the provided images (the image being saved, then
    the appended ones) that has exactly this size is embedded, and when
    there is none, a copy of the last provided image scaled down to it.
    The scaler and the byte layout of the container stay parameters. *)
Module PIL.

Definition size_le (a b : Z * Z) : Prop :=
  a.1 < b.1 \/ (a.1 = b.1 /\ a.2 <= b.2).

#[global] Instance size_le_dec : RelDecision size_le.
Proof. intros a b. unfold size_le. apply _. Defined.

(** [sorted(set(sizes))] *)
Definition sorted_set (sizes : list (Z * Z)) : list (Z * Z) :=
  merge_sort size_le (remove_dups sizes).

(** [size[0] > width or size[1] > height or size[0] > 256 or size[1] > 256] *)
Definition skipped (im : image) (size : Z * Z) : bool :=
  (size.1 >? (im_size im).1) || (size.2 >? (im_size im).2)
  || (size.1 >? 256) || (size.2 >? 256).

Section Frames.
Variable thumbnail : image -> Z * Z -> image.

Definition frame_for (provided_ims : list image) (size : Z * Z) : image :=
  match filter (fun provided_im => im_size provided_im = size) provided_ims with
  | provided_im :: _ => provided_im
  | [] => thumbnail (List.last provided_ims (Image (0, 0) [])) size
  end.

Definition ico_frames (im : image) (sizes : list (Z * Z))
    (append_images : list image) : list image :=
  let provided_ims := im :: append_images in
  frame_for provided_ims
    <$> filter (fun size => skipped im size = false) (sorted_set sizes).
End Frames.

End PIL.

(** ** A small concrete platform

    Used to run the script on explicit inputs.  Its renderer fails on an
    empty document and otherwise produces a four-byte header (width and
    height, big-endian) followed by the document; its reader parses that
    header back; its ICO writer is Pillow's frame selection above, followed
    by a frame count and the frames. *)
Module Sample.

Definition byte_of_Z (z : Z) : byte := default x00 (Byte.of_N (Z.to_N z)).
Definition Z_of_byte (b : byte) : Z := Z.of_N (Byte.to_N b).

Definition be16 (n : Z) : list byte := [byte_of_Z (n / 256); byte_of_Z (n mod 256)].

Definition render (svg : list byte) (width height : Z) : outcome (list byte) :=
  match svg with
  | [] => Raise (OtherError "no element found")
  | _ => Return (be16 width ++ be16 height ++ svg)%list
  end.

Definition decode (data : list byte) : outcome image :=
  match data with
  | a :: b :: c :: d :: pixels =>
      Return (Image (256 * Z_of_byte a + Z_of_byte b,
                     256 * Z_of_byte c + Z_of_byte d) pixels)
  | _ => Raise (OtherError "cannot identify image file")
  end.

Definition thumbnail (im : image) (size : Z * Z) : image :=
  Image size (im_pixels im).

Definition ico_encode (frames : list image) : list byte :=
  (byte_of_Z (Z.of_nat (length frames))
   :: concat ((fun frame => be16 (im_size frame).1 ++ be16 (im_size frame).2
                            ++ im_pixels frame) <$> frames))%list.

Definition ico_writer (im : image) (sizes : list (Z * Z))
    (append_images : list image) : outcome (list byte) :=
  Return (ico_encode (PIL.ico_frames thumbnail im sizes append_images)).

(** A shell in which the installer works, and one in which it fails. *)
Definition pip_works (command : string) (s : gmap string (outcome unit))
  : gmap string (outcome unit) * Z :=
  if bool_decide (command = "pip3 install cairosvg pillow")
  then (<["cairosvg" := Return tt]> (<["PIL" := Return tt]> s), 0)
  else (s, 127).

Definition pip_fails (command : string) (s : gmap string (outcome unit))
  : gmap string (outcome unit) * Z := (s, 1).

Definition platform : Platform :=
  {| svg_render := render; image_decode := decode;
     ico_write := ico_writer; shell := pip_works |}.

(** A renderer that refuses surfaces wider than 100 pixels. *)
Definition render_small (svg : list byte) (width height : Z)
  : outcome (list byte) :=
  if (100 <? width)%Z then Raise (OtherError "surface too large")
  else render svg width height.

Definition limited : Platform :=
  {| svg_render := render_small; image_decode := decode;
     ico_write := ico_writer; shell := pip_works |}.

Definition offline : Platform :=
  {| svg_render := render; image_decode := decode;
     ico_write := ico_writer; shell := pip_fails |}.

(** The bytes of ["<svg/>"]. *)
Definition svg_doc : list byte := [x3c; x73; x76; x67; x2f; x3e].

Definition installed : gmap string (outcome unit) :=
  {["cairosvg" := Return tt; "PIL" := Return tt]}.

(** A working directory that holds [icon.svg] only, an empty one, and one
    whose [icon.svg] is empty. *)
Definition with_icon : world := World {["icon.svg" := svg_doc]} installed ∅ [].
Definition no_icon : world := World ∅ installed ∅ [].
Definition bad_icon : world := World {["icon.svg" := []]} installed ∅ [].
Definition bare : world := World {["icon.svg" := svg_doc]} ∅ ∅ [].

(** A second directory, with another document and an earlier log. *)
Definition other_icon : world :=
  World {["icon.svg" := [x3c; x73; x76; x67; x3e]; "notes.txt" := [x68; x69]]}
    installed ∅ [Stdout "earlier output"].

(** A platform whose reader identifies no image, and a directory that
    still holds the output of an earlier run on another icon. *)
Definition blind : Platform :=
  {| svg_render := render;
     image_decode := fun _ => Raise (OtherError "cannot identify image file");
     ico_write := ico_writer; shell := pip_works |}.

Definition stale : world :=
  World {["icon.svg" := svg_doc; "favicon.ico" := [x6f; x6c; x64];
          "favicon-16x16.png" := [x6f; x6c; x64]]}
    installed ∅ [].

End Sample.


(** ** Observing a run *)

(** The events a computation appends to the log when it is run in [w]. *)
Definition events_of (m : M unit) (w : world) : list event :=
  drop (length (log w)) (log (m w).2).

Definition is_summary_line (e : event) : bool :=
  match e with
  | Stdout line => bool_decide (line ∈ summary)
  | _ => false
  end.

(** All the steps of the orchestration, in order: one rasterization per
    entry of the table, then one ICO save, then the summary. *)
Definition all_steps_in_order (new : list event) : Prop :=
  exists img_16 img_32,
    filter is_step new
    = (((fun '(_, size) => Svg2png "icon.svg" size size) <$> SIZES)
       ++ [ImageSave img_16 "favicon.ico" "ICO" ico_sizes [img_32]]
       ++ (Stdout <$> summary))%list.

(** The summary is the last thing printed. *)
Definition ends_with_summary (new : list event) : Prop :=
  exists before, new = (before ++ (Stdout <$> summary))%list.

(** A platform whose ICO writer is Pillow's: the container is encoded from
    the frames Pillow selects. *)
Definition pillow_ico `{Platform} (thumbnail : image -> Z * Z -> image)
    (encode : list image -> list byte) : Prop :=
  forall im sizes append_images,
    ico_write im sizes append_images
    = Return (encode (PIL.ico_frames thumbnail im sizes append_images)).

(** * Properties *)

(** ** Writes *)

Lemma write_all_app ws1 ws2 (m : gmap string (list byte)) :
  write_all (ws1 ++ ws2) m = write_all ws2 (write_all ws1 m).
Proof. unfold write_all. apply foldl_app. Qed.

Lemma write_all_union ws (m : gmap string (list byte)) :
  write_all ws m = write_all ws ∅ ∪ m.
Proof.
  revert m. induction ws as [|[k v] ws IH]; intros m.
  - simpl. by rewrite (left_id_L ∅ (∪)).
  - simpl. rewrite (IH (<[k:=v]> m)), (IH (<[k:=v]> ∅)).
    rewrite <- (assoc_L (∪)). f_equal.
    rewrite insert_union_singleton_l, insert_union_singleton_l.
    by rewrite (right_id_L ∅ (∪)).
Qed.

Lemma write_all_idemp ws (m : gmap string (list byte)) :
  write_all ws (write_all ws m) = write_all ws m.
Proof.
  rewrite (write_all_union ws (write_all ws m)), (write_all_union ws m).
  by rewrite (assoc_L (∪)), (idemp_L (∪)).
Qed.

Lemma written_None ws path : path ∉ ws.*1 -> written ws path = None.
Proof.
  unfold written. induction ws as [|[k v] ws IH] using rev_ind; intros Hnot.
  - apply lookup_empty.
  - rewrite fmap_app in Hnot. apply not_elem_of_app in Hnot as [Hws Hk].
    rewrite write_all_app. simpl.
    rewrite lookup_insert_ne; [by apply IH|].
    intros ->. apply Hk. apply list_elem_of_singleton. reflexivity.
Qed.

Lemma lookup_write_all ws (m : gmap string (list byte)) path :
  write_all ws m !! path = from_option Some (m !! path) (written ws path).
Proof.
  rewrite write_all_union, lookup_union. unfold written.
  destruct (write_all ws ∅ !! path); simpl; [|by rewrite (left_id_L None _)].
  by destruct (m !! path).
Qed.

Lemma lookup_write_all_notin ws (m : gmap string (list byte)) path :
  path ∉ ws.*1 -> write_all ws m !! path = m !! path.
Proof. intros Hnot. by rewrite lookup_write_all, written_None. Qed.

Lemma written_Some ws path : path ∈ ws.*1 -> is_Some (written ws path).
Proof.
  unfold written. induction ws as [|[k v] ws IH] using rev_ind; intros Hin.
  - by apply elem_of_nil in Hin.
  - rewrite write_all_app. simpl. destruct (decide (k = path)) as [->|Hne].
    + rewrite lookup_insert_eq. by eexists.
    + rewrite lookup_insert_ne by done. apply IH.
      rewrite fmap_app in Hin. apply elem_of_app in Hin as [Hin|Hin]; [done|].
      apply list_elem_of_singleton in Hin. by subst.
Qed.

Lemma lookup_write_all_in ws (m : gmap string (list byte)) path :
  path ∈ ws.*1 -> write_all ws m !! path = written ws path.
Proof.
  intros Hin. rewrite lookup_write_all.
  by destruct (written_Some ws path Hin) as [v ->].
Qed.

(** ** Effects compose *)

Lemma after_and_then e1 e2 w a :
  result e1 = Return a ->
  after (and_then e1 e2) w = after e2 (after e1 w).2.
Proof.
  intros Hret. unfold after, and_then. rewrite Hret. simpl.
  by rewrite write_all_app, (assoc_L (++)).
Qed.

Lemma after_and_then_raise e1 e2 w e :
  result e1 = Raise e ->
  after (and_then e1 e2) w = after e1 w.
Proof. intros Hraise. unfold and_then. by rewrite Hraise. Qed.

(** The rule for [m ;; k]. *)
Lemma bind_after (m : M unit) (k : M unit) e1 e2 w :
  m w = after e1 w ->
  (forall a, result e1 = Return a -> k (after e1 w).2 = after e2 (after e1 w).2) ->
  bind m (fun _ => k) w = after (and_then e1 e2) w.
Proof.
  intros Hm Hk. unfold bind. rewrite Hm.
  destruct (result e1) as [a|e] eqn:Hres.
  - rewrite (after_and_then _ _ _ a Hres), <- (Hk a eq_refl).
    unfold after. by rewrite Hres.
  - rewrite (after_and_then_raise _ _ _ e Hres).
    unfold after. by rewrite Hres.
Qed.

Lemma after_done w : after done_ w = (Return tt, w).
Proof. unfold after. simpl. rewrite (right_id_L [] (++)). by destruct w. Qed.

Lemma print_after line w : print line w = after (say [line]) w.
Proof. reflexivity. Qed.

Lemma say_cons line lines : say (line :: lines) = and_then (say [line]) (say lines).
Proof. reflexivity. Qed.

Lemma for_each_print {A} (f : A -> string) xs w :
  for_each xs (fun x => print (f x)) w = after (say (f <$> xs)) w.
Proof.
  revert w. induction xs as [|x xs IH]; intros w.
  - simpl. unfold ret. symmetry. apply after_done.
  - simpl for_each. rewrite fmap_cons, say_cons.
    apply bind_after; [apply print_after | intros _ _; apply IH].
Qed.

Lemma say_app ls1 ls2 : say (ls1 ++ ls2) = and_then (say ls1) (say ls2).
Proof. unfold say, and_then. simpl. by rewrite fmap_app. Qed.

(** ** The script against its effects *)

Section Runs.
Context `{Platform}.

Lemma generate_png_from_svg_run svg_path svg output_path size w :
  files w !! svg_path = Some svg ->
  generate_png_from_svg svg_path output_path size w
  = after (png_effect svg_path svg (output_path, size)) w.
Proof.
  intros Hsvg.
  unfold generate_png_from_svg, bind, cairosvg_svg2png, png_effect.
  rewrite Hsvg. destruct (svg_render svg size size) as [png_data|e]; [|done].
  unfold open_wb, file_write, print, after, emit, set_files. simpl.
  by rewrite lookup_insert_eq, insert_insert_eq, <- !(assoc_L (++)).
Qed.

Lemma png_effect_writes svg_path svg entry :
  (writes (png_effect svg_path svg entry)).*1 ⊆ [entry.1].
Proof.
  destruct entry as [output_path size]. unfold png_effect.
  destruct (svg_render svg size size); simpl; [done|].
  apply list_subseteq_nil.
Qed.

Lemma for_each_run svg_path svg entries w :
  svg_path ∉ entries.*1 ->
  files w !! svg_path = Some svg ->
  for_each entries (fun '(filename, size) =>
    generate_png_from_svg svg_path filename size) w
  = after (loop_effect svg_path svg entries) w.
Proof.
  revert w. induction entries as [|[filename size] entries IH]; intros w Hnot Hsvg.
  - simpl. unfold ret. symmetry. apply after_done.
  - simpl in Hnot. apply not_elem_of_cons in Hnot as [Hne Hnot].
    simpl for_each. simpl loop_effect.
    apply bind_after; [by apply generate_png_from_svg_run|].
    intros _ _. apply IH; [done|].
    unfold after. cbn [snd files]. rewrite lookup_write_all_notin; [done|].
    intros Hin. apply (png_effect_writes svg_path svg (filename, size)) in Hin.
    by apply list_elem_of_singleton in Hin.
Qed.

Lemma generate_ico_run png_16_path png_32_path output_path w :
  generate_ico png_16_path png_32_path output_path w
  = after (ico_effect png_16_path png_32_path output_path
             (files w !! png_16_path) (files w !! png_32_path)) w.
Proof.
  unfold generate_ico, bind, Image_open, Image_save, ico_effect, print, after,
    emit, set_files.
  simpl.
  destruct (files w !! png_16_path) as [data_16|]; [|done].
  destruct (image_decode data_16) as [img_16|e]; [|done].
  destruct (files w !! png_32_path) as [data_32|]; simpl;
    [|by rewrite <- (assoc_L (++))].
  destruct (image_decode data_32) as [img_32|e]; simpl;
    [|by rewrite <- (assoc_L (++))].
  destruct (ico_write img_16 ico_sizes [img_32]) as [data|e] eqn:Hico;
    unfold ico_sizes in Hico; rewrite Hico; simpl;
    by rewrite <- !(assoc_L (++)).
Qed.

Lemma loop_effect_writes svg_path svg entries a :
  result (loop_effect svg_path svg entries) = Return a ->
  (writes (loop_effect svg_path svg entries)).*1 = entries.*1.
Proof.
  induction entries as [|[filename size] entries IH]; [done|].
  change (loop_effect svg_path svg ((filename, size) :: entries))
    with (and_then (png_effect svg_path svg (filename, size))
                   (loop_effect svg_path svg entries)).
  unfold and_then, png_effect.
  destruct (svg_render svg size size) as [png_data|e]; cbn [result writes]; [|done].
  intros Hres. by rewrite fmap_app, IH.
Qed.

Lemma summary_run w :
  (print (String "010"%char "✅ All icons generated successfully!") ;;
   print (String "010"%char "Generated files:") ;;
   for_each SIZES.*1 (fun filename => print ("  - " +:+ filename)) ;;
   print "  - favicon.ico") w
  = after (say summary) w.
Proof.
  replace (say summary) with
    (and_then (say [String "010"%char "✅ All icons generated successfully!"])
      (and_then (say [String "010"%char "Generated files:"])
        (and_then (say ((fun filename => "  - " +:+ filename) <$> SIZES.*1))
          (say ["  - favicon.ico"])))) by reflexivity.
  apply bind_after; [apply print_after | intros _ _].
  apply bind_after; [apply print_after | intros _ _].
  apply bind_after; [apply for_each_print | intros _ _].
  apply print_after.
Qed.

Lemma icon_not_in_SIZES : "icon.svg" ∉ SIZES.*1.
Proof. apply (bool_decide_unpack _). by vm_compute. Qed.

(** [main] does what [main_effect] says, whatever the world. *)
Lemma main_run w : main w = after (main_effect (files w !! "icon.svg")) w.
Proof.
  unfold main, main_effect. unfold bind at 1. unfold os_path_exists.
  destruct (files w !! "icon.svg") as [svg|] eqn:Hsvg.
  - rewrite bool_decide_eq_true_2 by by eexists. simpl negb. cbv iota.
    apply bind_after; [apply print_after | intros _ _].
    apply bind_after;
      [by apply for_each_run; [apply icon_not_in_SIZES|] | intros a Hres].
    apply bind_after; [| intros _ _; apply summary_run].
    set (pngs := loop_effect "icon.svg" svg SIZES) in *.
    set (w' := (after pngs (after (say ["Generating icons..."]) w).2).2).
    assert (forall path, path ∈ SIZES.*1 ->
              files w' !! path = written (writes pngs) path) as Hpngs.
    { intros path Hpath. apply lookup_write_all_in.
      unfold pngs. by rewrite (loop_effect_writes _ _ _ a Hres). }
    rewrite generate_ico_run, !Hpngs; [done| |];
      apply (bool_decide_unpack _); by vm_compute.
  - rewrite bool_decide_eq_false_2 by by intros [? ?]. done.
Qed.

End Runs.

(** ** Successful and failing runs *)

Section Outcomes.
Context `{Platform}.

Lemma rasterizes_Forall svg : rasterizes svg <-> Forall (renders svg) SIZES.
Proof.
  rewrite Forall_forall. split.
  - intros Hall [name size] Hin. by apply (Hall name size).
  - intros Hall name size Hin. by apply (Hall (name, size)).
Qed.

Lemma png_of_Return svg size png :
  svg_render svg size size = Return png -> png_of svg size = png.
Proof. unfold png_of. by intros ->. Qed.

(** A loop in which every rasterization returns. *)
Lemma loop_effect_ok svg_path svg entries :
  Forall (renders svg) entries ->
  loop_effect svg_path svg entries
  = Effect (Return tt) (png_writes svg entries) (png_trace svg_path entries).
Proof.
  induction 1 as [|[filename size] entries [png Hpng] _ IH]; [done|].
  change (loop_effect svg_path svg ((filename, size) :: entries))
    with (and_then (png_effect svg_path svg (filename, size))
                   (loop_effect svg_path svg entries)).
  rewrite IH. unfold and_then, png_effect. simpl in Hpng. rewrite Hpng.
  unfold png_writes, png_trace. cbn -[png_of generated_message].
  by rewrite (png_of_Return _ _ _ Hpng).
Qed.

(** A loop whose rasterization fails at some entry: the entries before it
    are written, the failing call is the last event. *)
Lemma loop_effect_fails svg_path svg before filename size later e :
  Forall (renders svg) before ->
  svg_render svg size size = Raise e ->
  loop_effect svg_path svg (before ++ (filename, size) :: later)
  = Effect (Raise e) (png_writes svg before)
      (png_trace svg_path before ++ [Svg2png svg_path size size]).
Proof.
  intros Hbefore Hfail.
  induction Hbefore as [|[name0 size0] before [png Hpng] _ IH].
  - simpl. unfold and_then, png_effect. by rewrite Hfail.
  - change (loop_effect svg_path svg
              (((name0, size0) :: before) ++ (filename, size) :: later))
      with (and_then (png_effect svg_path svg (name0, size0))
              (loop_effect svg_path svg (before ++ (filename, size) :: later))).
    rewrite IH. unfold and_then, png_effect. simpl in Hpng. rewrite Hpng.
    unfold png_writes, png_trace. cbn -[png_of generated_message].
    by rewrite (png_of_Return _ _ _ Hpng).
Qed.

Lemma main_effect_ok svg :
  rasterizes svg -> packs svg -> main_effect (Some svg) = main_ok_effect svg.
Proof.
  intros Hall Hpack.
  destruct (Hall "favicon-16x16.png" 16) as [png_16 H16];
    [apply (bool_decide_unpack _); by vm_compute|].
  destruct (Hall "favicon-32x32.png" 32) as [png_32 H32];
    [apply (bool_decide_unpack _); by vm_compute|].
  destruct (Hpack png_16 png_32 H16 H32) as (img_16 & img_32 & ico & D16 & D32 & Hico).
  unfold main_effect. rewrite loop_effect_ok by by apply rasterizes_Forall.
  cbn [writes].
  replace (written (png_writes svg SIZES) "favicon-16x16.png")
    with (Some (png_of svg 16)) by by vm_compute.
  replace (written (png_writes svg SIZES) "favicon-32x32.png")
    with (Some (png_of svg 32)) by by vm_compute.
  unfold main_ok_effect, ico_trace, ico_of, img_of, ico_effect.
  rewrite (png_of_Return _ _ _ H16), (png_of_Return _ _ _ H32), D16, D32.
  cbn [value]. rewrite Hico. reflexivity.
Qed.

Lemma main_ok w svg :
  files w !! "icon.svg" = Some svg -> rasterizes svg -> packs svg ->
  main w = after (main_ok_effect svg) w.
Proof. intros Hsvg Hall Hpack. by rewrite main_run, Hsvg, main_effect_ok. Qed.

End Outcomes.

(** ** Facts about the effect of [main] *)

Lemma events_of_after (m : M unit) e w :
  m w = after e w -> events_of m w = trace e.
Proof.
  intros Hm. unfold events_of. rewrite Hm. unfold after. simpl.
  by rewrite drop_app_length.
Qed.

Lemma written_paths_app l1 l2 :
  written_paths (l1 ++ l2) = (written_paths l1 ++ written_paths l2)%list.
Proof. apply omap_app. Qed.

Lemma written_paths_png_trace svg_path entries :
  written_paths (png_trace svg_path entries) = entries.*1.
Proof.
  induction entries as [|[filename size] entries IH]; [done|].
  rewrite fmap_cons. cbn [fst]. rewrite <- IH. reflexivity.
Qed.

Lemma lookup_write_all_NoDup ws (m : gmap string (list byte)) path data :
  NoDup ws.*1 -> (path, data) ∈ ws -> write_all ws m !! path = Some data.
Proof.
  induction ws as [|[k v] ws IH] using rev_ind; intros Hdup Hin.
  - by apply elem_of_nil in Hin.
  - rewrite fmap_app in Hdup. apply NoDup_app in Hdup as (Hdup & Hfresh & _).
    rewrite write_all_app. simpl.
    apply elem_of_app in Hin as [Hin|Hin].
    + rewrite lookup_insert_ne; [by apply IH|].
      intros ->. apply (Hfresh path).
      * apply list_elem_of_fmap. by exists (path, data).
      * apply list_elem_of_singleton. reflexivity.
    + apply list_elem_of_singleton in Hin. injection Hin as -> ->.
      apply lookup_insert_eq.
Qed.

Lemma SIZES_NoDup : NoDup SIZES.*1.
Proof. apply (bool_decide_unpack _). by vm_compute. Qed.

Lemma OUTPUTS_NoDup : NoDup OUTPUTS.
Proof. apply (bool_decide_unpack _). by vm_compute. Qed.

Lemma icon_not_in_OUTPUTS : "icon.svg" ∉ OUTPUTS.
Proof. apply (bool_decide_unpack _). by vm_compute. Qed.

Section Facts.
Context `{Platform}.

Lemma main_ok_effect_paths svg : (writes (main_ok_effect svg)).*1 = OUTPUTS.
Proof. reflexivity. Qed.

Lemma png_writes_fst svg entries : (png_writes svg entries).*1 = entries.*1.
Proof.
  unfold png_writes. induction entries as [|[filename size] entries IH]; [done|].
  rewrite !fmap_cons. by rewrite IH.
Qed.

Lemma png_writes_elem svg entries filename size :
  (filename, size) ∈ entries ->
  (filename, png_of svg size) ∈ png_writes svg entries.
Proof.
  intros Hin. unfold png_writes. apply list_elem_of_fmap.
  by exists (filename, size).
Qed.

(** After a run in which nothing raised, each name of the table holds the
    rendering of the icon at that entry's size. *)
Lemma main_ok_png svg (m : gmap string (list byte)) filename size :
  (filename, size) ∈ SIZES ->
  write_all (writes (main_ok_effect svg)) m !! filename = Some (png_of svg size).
Proof.
  intros Hin. apply lookup_write_all_NoDup.
  - rewrite main_ok_effect_paths. apply OUTPUTS_NoDup.
  - unfold main_ok_effect. cbn [writes]. apply elem_of_app. left.
    by apply png_writes_elem.
Qed.

Lemma main_ok_ico svg (m : gmap string (list byte)) :
  write_all (writes (main_ok_effect svg)) m !! "favicon.ico" = Some (ico_of svg).
Proof.
  apply lookup_write_all_NoDup.
  - rewrite main_ok_effect_paths. apply OUTPUTS_NoDup.
  - unfold main_ok_effect. cbn [writes]. apply elem_of_app. right.
    apply list_elem_of_singleton. reflexivity.
Qed.

Lemma main_ok_written_paths svg :
  written_paths (trace (main_ok_effect svg)) = OUTPUTS.
Proof. reflexivity. Qed.

End Facts.

(** ** Where a run can write *)

Lemma and_then_writes e1 e2 path :
  path ∈ (writes (and_then e1 e2)).*1 ->
  path ∈ (writes e1).*1 \/ path ∈ (writes e2).*1.
Proof.
  unfold and_then. destruct (result e1); cbn [writes]; [|by left].
  rewrite fmap_app. apply elem_of_app.
Qed.

Section Frame.
Context `{Platform}.

Lemma loop_effect_paths svg_path svg entries path :
  path ∈ (writes (loop_effect svg_path svg entries)).*1 -> path ∈ entries.*1.
Proof.
  induction entries as [|[filename size] entries IH]; [done|].
  change (loop_effect svg_path svg ((filename, size) :: entries))
    with (and_then (png_effect svg_path svg (filename, size))
                   (loop_effect svg_path svg entries)).
  intros [Hin|Hin]%and_then_writes; rewrite fmap_cons.
  - apply (png_effect_writes svg_path svg (filename, size)) in Hin.
    apply list_elem_of_singleton in Hin. subst. apply list_elem_of_here.
  - apply list_elem_of_further. by apply IH.
Qed.

Lemma ico_effect_paths a b c png_16 png_32 path :
  path ∈ (writes (ico_effect a b c png_16 png_32)).*1 -> path = c.
Proof.
  unfold ico_effect.
  destruct png_16 as [data_16|]; [|by intros ?%elem_of_nil].
  destruct (image_decode data_16); [|by intros ?%elem_of_nil].
  destruct png_32 as [data_32|]; [|by intros ?%elem_of_nil].
  destruct (image_decode data_32); [|by intros ?%elem_of_nil].
  destruct (ico_write _ _ _); [|by intros ?%elem_of_nil].
  cbn [writes]. by intros ?%list_elem_of_singleton.
Qed.

(** Whatever happens, [main] writes to the six output names only. *)
Lemma main_effect_paths icon path :
  path ∈ (writes (main_effect icon)).*1 -> path ∈ OUTPUTS.
Proof.
  destruct icon as [svg|]; [|by intros ?%elem_of_nil].
  unfold main_effect, OUTPUTS.
  intros [Hin|[Hin|[Hin|Hin]%and_then_writes]%and_then_writes]%and_then_writes.
  - by apply elem_of_nil in Hin.
  - apply elem_of_app. left. by apply loop_effect_paths in Hin.
  - apply elem_of_app. right. apply ico_effect_paths in Hin. subst.
    apply list_elem_of_singleton. reflexivity.
  - by apply elem_of_nil in Hin.
Qed.

Lemma main_keeps_icon w : files (main w).2 !! "icon.svg" = files w !! "icon.svg".
Proof.
  rewrite main_run. unfold after. cbn [snd files].
  apply lookup_write_all_notin. intros Hin%main_effect_paths.
  by apply icon_not_in_OUTPUTS.
Qed.

(** The imports print nothing and run no command: they only try to load
    the two modules, and leave the rest of the world alone. *)
Lemma import_run name w :
  exists now_loaded,
    (import_ name w).2
    = World (files w) (site w) now_loaded (log w ++ [Imported name]).
Proof.
  unfold import_, emit, set_loaded. cbn [site files log loaded].
  destruct (bool_decide (name ∈ loaded w)); [by eexists|].
  destruct (site w !! name) as [[[]|e]|]; by eexists.
Qed.

Lemma imports_run w :
  exists now_loaded tail,
    (imports w).2 = World (files w) (site w) now_loaded (log w ++ tail)
    /\ filter is_OsSystem tail = [].
Proof.
  unfold imports, bind.
  destruct (import_run "cairosvg" w) as [loaded1 Hfirst].
  destruct (import_ "cairosvg" w) as [[[]|e] w1]; cbn [snd] in Hfirst; subst w1.
  - destruct (import_run "PIL"
                (World (files w) (site w) loaded1 (log w ++ [Imported "cairosvg"])))
      as [loaded2 Hsecond].
    exists loaded2, [Imported "cairosvg"; Imported "PIL"].
    rewrite Hsecond. cbn [files site log]. by rewrite <- (assoc_L (++)).
  - by exists loaded1, [Imported "cairosvg"].
Qed.

End Frame.

(** * The claims of the specification *)

Section Claims.
Context `{Platform}.

(** C1. In a run of [main] in which [icon.svg] exists and every
    rasterization call and the packing calls succeed, [main] returns
    normally; the files it opens for writing are exactly the six literal
    names, each once and in this order; no other path of the working
    directory changes; and every PNG of the table holds the rendering at
    that entry's size, whose width and height both equal the table entry
    (given that the renderer honours the size it is asked for). *)
Theorem main_writes_six_files w svg :
  files w !! "icon.svg" = Some svg ->
  rasterizes svg -> packs svg -> renders_requested_size svg ->
  exists w',
    main w = (Return tt, w') /\
    written_paths (events_of main w)
    = ["favicon-16x16.png"; "favicon-32x32.png"; "apple-touch-icon.png";
       "android-chrome-192x192.png"; "android-chrome-512x512.png";
       "favicon.ico"] /\
    (forall path, path ∉ OUTPUTS -> files w' !! path = files w !! path) /\
    is_Some (files w' !! "favicon.ico") /\
    (forall filename size, (filename, size) ∈ SIZES ->
       exists png,
         files w' !! filename = Some png /\
         svg_render svg size size = Return png /\
         png_size png = Some (size, size)).
Proof.
  intros Hsvg Hall Hpack Hsize.
  pose proof (main_ok w svg Hsvg Hall Hpack) as Hrun.
  exists (after (main_ok_effect svg) w).2. repeat split.
  - exact Hrun.
  - by rewrite (events_of_after _ _ _ Hrun).
  - intros path Hpath. unfold after. cbn [snd files].
    apply lookup_write_all_notin. by rewrite main_ok_effect_paths.
  - unfold after. cbn [snd files]. rewrite main_ok_ico. by eexists.
  - intros filename size Hin.
    destruct (Hall filename size Hin) as [png Hpng].
    exists png. unfold after. cbn [snd files].
    rewrite (main_ok_png svg _ filename size Hin).
    rewrite (png_of_Return _ _ _ Hpng). repeat split; [done|].
    by apply (Hsize filename).
Qed.

(** C2. When [icon.svg] does not exist, [main] prints the error message
    and returns normally: no exception reaches the caller, no file is
    opened for writing and the files are what they were. *)
Theorem main_without_icon w :
  files w !! "icon.svg" = None ->
  main w = (Return tt, World (files w) (site w) (loaded w)
                         (log w ++ [Stdout "Error: icon.svg not found!"]))
  /\ written_paths (events_of main w) = [].
Proof.
  intros Hnone.
  assert (main w = after (say ["Error: icon.svg not found!"]) w) as Hrun.
  { rewrite main_run, Hnone. reflexivity. }
  split; [exact Hrun|]. by rewrite (events_of_after _ _ _ Hrun).
Qed.

(** C3, as amended.  In a run in which [icon.svg] exists and no call
    raises, [main] returns normally and its steps are, in this order and
    with nothing else among them: the rasterization calls for 16, 32, 180,
    192 and 512, one for each entry of the table; one ICO save; the lines
    of the summary. *)
Theorem main_steps_in_order w svg :
  files w !! "icon.svg" = Some svg ->
  rasterizes svg -> packs svg ->
  (main w).1 = Return tt /\ all_steps_in_order (events_of main w).
Proof.
  intros Hsvg Hall Hpack.
  pose proof (main_ok w svg Hsvg Hall Hpack) as Hrun.
  rewrite (events_of_after _ _ _ Hrun), Hrun. split; [done|].
  exists (img_of svg 16), (img_of svg 32). reflexivity.
Qed.

(** C5, as amended.  In a run in which [icon.svg] exists and no
    generation step raises, the last thing [main] prints is the summary:
    two header lines and the six expected file names, taken from the table
    and the literal [favicon.ico] with no look at the files. *)
Theorem main_prints_summary w svg :
  files w !! "icon.svg" = Some svg ->
  rasterizes svg -> packs svg ->
  ends_with_summary (events_of main w) /\
  summary
  = [ String "010"%char "✅ All icons generated successfully!";
      String "010"%char "Generated files:";
      "  - favicon-16x16.png"; "  - favicon-32x32.png";
      "  - apple-touch-icon.png"; "  - android-chrome-192x192.png";
      "  - android-chrome-512x512.png"; "  - favicon.ico" ].
Proof.
  intros Hsvg Hall Hpack.
  pose proof (main_ok w svg Hsvg Hall Hpack) as Hrun.
  rewrite (events_of_after _ _ _ Hrun). split; [|reflexivity].
  exists (Stdout "Generating icons..." :: png_trace "icon.svg" SIZES ++ ico_trace svg)%list.
  unfold main_ok_effect. cbn [trace].
  by rewrite <- app_comm_cons, <- (assoc_L (++)).
Qed.

(** C6.  Running [main] a second time, on the world the first run left,
    ends the same way, does the same things in the same order (so it
    writes every output file the first run wrote again) and leaves every
    file with the content it had after the first run.  The libraries are
    functions of their arguments. *)
Theorem main_idempotent w :
  let w1 := (main w).2 in
  let w2 := (main w1).2 in
  (main w1).1 = (main w).1
  /\ events_of main w1 = events_of main w
  /\ files w2 = files w1.
Proof.
  intros w1 w2. unfold w2.
  assert (files w1 !! "icon.svg" = files w !! "icon.svg") as Hicon
    by apply main_keeps_icon.
  rewrite (events_of_after _ _ _ (main_run w1)), (events_of_after _ _ _ (main_run w)).
  rewrite (main_run w1), Hicon. unfold w1. rewrite (main_run w).
  unfold after. cbn [fst snd files]. repeat split.
  apply write_all_idemp.
Qed.

(** C7.  When the rasterization fails at some entry of the table while
    those before it succeeded, [main] ends with the exception the renderer
    raised; the files of the earlier entries hold their renderings; the
    file of the failing entry, those of the later entries and [favicon.ico]
    are what they were before the run (nothing, if they did not exist); and
    the failing call is the last thing the run does: no file is opened for
    it, no later rasterization and no packing step runs. *)
Theorem main_rasterization_fails w svg before filename size later e :
  files w !! "icon.svg" = Some svg ->
  SIZES = (before ++ (filename, size) :: later)%list ->
  Forall (renders svg) before ->
  svg_render svg size size = Raise e ->
  (main w).1 = Raise e
  /\ events_of main w
     = (Stdout "Generating icons..." :: png_trace "icon.svg" before
        ++ [Svg2png "icon.svg" size size])%list
  /\ written_paths (events_of main w) = before.*1
  /\ (forall name size0, (name, size0) ∈ before ->
        files (main w).2 !! name = Some (png_of svg size0))
  /\ files (main w).2 !! filename = files w !! filename
  /\ (forall path, path ∈ later.*1 ->
        files (main w).2 !! path = files w !! path)
  /\ files (main w).2 !! "favicon.ico" = files w !! "favicon.ico".
Proof.
  intros Hsvg Htable Hbefore Hfail.
  pose proof SIZES_NoDup as Hdup. rewrite Htable, fmap_app, fmap_cons in Hdup.
  apply NoDup_app in Hdup as (Hdup & Hfresh & _).
  assert (main w = after (Effect (Raise e) (png_writes svg before)
            (Stdout "Generating icons..." :: png_trace "icon.svg" before
             ++ [Svg2png "icon.svg" size size])%list) w) as Hrun.
  { rewrite main_run, Hsvg. unfold main_effect.
    rewrite Htable, (loop_effect_fails _ _ _ _ _ _ e Hbefore Hfail).
    reflexivity. }
  rewrite (events_of_after _ _ _ Hrun), Hrun. unfold after.
  cbn [fst snd files trace writes result].
  repeat split.
  - rewrite app_comm_cons, written_paths_app.
    change (written_paths [Svg2png "icon.svg" size size]) with (@nil string).
    rewrite (right_id_L [] (++)).
    apply (written_paths_png_trace "icon.svg").
  - intros name size0 Hin. apply lookup_write_all_NoDup.
    + by rewrite png_writes_fst.
    + by apply png_writes_elem.
  - apply lookup_write_all_notin. rewrite png_writes_fst.
    intros Hin. apply (Hfresh _ Hin). apply list_elem_of_here.
  - intros path Hlater. apply lookup_write_all_notin. rewrite png_writes_fst.
    intros Hin. apply (Hfresh _ Hin). by apply list_elem_of_further.
  - apply lookup_write_all_notin. rewrite png_writes_fst.
    intros Hin. pose proof OUTPUTS_NoDup as Hout. unfold OUTPUTS in Hout.
    apply NoDup_app in Hout as (_ & Hico & _). apply (Hico "favicon.ico").
    + rewrite Htable, fmap_app. apply elem_of_app. by left.
    + apply list_elem_of_singleton. reflexivity.
Qed.

(** C8.  When the first attempt at the imports raises [ImportError]
    (cairosvg is not installed, or it is and Pillow is not), the module
    prints one line and runs the installer once; the exit status of the
    installer is dropped, and the imports are attempted again at once in
    whatever state the installer left.  These second imports are not
    guarded: an exception they raise ends the script before [main] runs,
    and a module that is still missing makes it an [ImportError]. *)
Theorem bootstrap_single_install_attempt w name w1 :
  imports w = (Raise (ImportError name), w1) ->
  let command := "pip3 install cairosvg pillow" in
  let w2 := emit (OsSystem command)
              (set_site (shell command (site w1)).1
                 (emit (Stdout "Installing required packages...") w1)) in
  bootstrap w = imports w2
  /\ filter is_OsSystem (events_of bootstrap w) = [OsSystem command]
  /\ (forall e w3, imports w2 = (Raise e, w3) -> script w = (Raise e, w3))
  /\ ("cairosvg" ∉ loaded w2 -> site w2 !! "cairosvg" = None
      -> (script w).1 = Raise (ImportError "cairosvg")).
Proof.
  intros Himp command w2.
  assert (bootstrap w = imports w2) as Hboot.
  { subst w2 command. unfold bootstrap, try_except_ImportError.
    rewrite Himp. cbn [is_ImportError].
    unfold bind at 1, print. unfold bind at 1, os_system. cbn [site emit].
    by destruct (shell _ (site w1)) as [s status]. }
  split; [exact Hboot|]. split; [|split].
  - destruct (imports_run w) as (loaded1 & tail1 & Hw1 & Hnone1).
    destruct (imports_run w2) as (loaded2 & tail2 & Hw3 & Hnone2).
    rewrite Himp in Hw1. cbn [snd] in Hw1.
    unfold events_of. rewrite Hboot, Hw3. cbn [log].
    assert (log w2 = log w ++ tail1
              ++ [Stdout "Installing required packages..."; OsSystem command])%list
      as -> by (unfold w2; rewrite Hw1; cbn [log emit set_site];
                by rewrite <- !(assoc_L (++))).
    rewrite <- !(assoc_L (++)), drop_app_length, !filter_app, Hnone1, Hnone2.
    reflexivity.
  - intros e w3 Hagain. unfold script, bind. by rewrite Hboot, Hagain.
  - intros Hfresh Hmissing. unfold script, bind. rewrite Hboot.
    unfold imports, bind, import_.
    by rewrite (bool_decide_eq_false_2 _ Hfresh), Hmissing.
Qed.

(** C9.  Two runs of [main] in which [icon.svg] exists and no call raises,
    whatever the two documents are, open the same paths for writing and
    print the same summary; both are fixed by the table and the literal
    [favicon.ico]. *)
Theorem outputs_fixed_by_table w1 w2 svg1 svg2 :
  files w1 !! "icon.svg" = Some svg1 ->
  files w2 !! "icon.svg" = Some svg2 ->
  rasterizes svg1 -> packs svg1 ->
  rasterizes svg2 -> packs svg2 ->
  written_paths (events_of main w1) = written_paths (events_of main w2)
  /\ filter is_summary_line (events_of main w1)
     = filter is_summary_line (events_of main w2)
  /\ written_paths (events_of main w1) = (SIZES.*1 ++ ["favicon.ico"])%list
  /\ filter is_summary_line (events_of main w1)
     = Stdout <$> ([ String "010"%char "✅ All icons generated successfully!";
                     String "010"%char "Generated files:" ]
                   ++ ((fun filename => "  - " +:+ filename)
                         <$> (SIZES.*1 ++ ["favicon.ico"])))%list.
Proof.
  intros Hsvg1 Hsvg2 Hall1 Hpack1 Hall2 Hpack2.
  rewrite (events_of_after _ _ _ (main_ok w1 svg1 Hsvg1 Hall1 Hpack1)).
  rewrite (events_of_after _ _ _ (main_ok w2 svg2 Hsvg2 Hall2 Hpack2)).
  repeat split.
Qed.

(** The frame of [main]: whatever happens in a run, an exception included,
    no path other than the six output names is created or changed;
    [icon.svg] in particular is never written. *)
Theorem main_writes_outputs_only w path :
  path ∉ OUTPUTS -> files (main w).2 !! path = files w !! path.
Proof.
  intros Hpath. rewrite main_run. unfold after. cbn [snd files].
  apply lookup_write_all_notin. by intros Hin%main_effect_paths.
Qed.

End Claims.

(** ** What Pillow embeds in [favicon.ico] *)

(** The save call of [generate_ico] is made on the 16x16 image, so the
    32x32 entry of [sizes] is larger than the image being saved: Pillow
    skips it and selects a single frame. *)
Lemma pillow_frames_of_save thumbnail img_16 img_32 :
  im_size img_16 = (16, 16) ->
  PIL.ico_frames thumbnail img_16 ico_sizes [img_32] = [img_16].
Proof.
  destruct img_16 as [size pixels]. simpl. intros ->. by vm_compute.
Qed.

Section Pillow.
Context `{Platform}.

Lemma img_of_size svg name size :
  (name, size) ∈ SIZES ->
  rasterizes svg -> renders_requested_size svg ->
  image_decode (png_of svg size) = Return (img_of svg size)
  /\ im_size (img_of svg size) = (size, size).
Proof.
  intros Hin Hall Hsize. destruct (Hall name size Hin) as [png Hpng].
  pose proof (Hsize name size png Hin Hpng) as Hdims.
  unfold img_of. rewrite (png_of_Return _ _ _ Hpng).
  unfold png_size in Hdims. destruct (image_decode png) as [im|]; [|done].
  cbn [value]. split; [done|]. congruence.
Qed.

(** C4, as the code has it.  With Pillow as the imaging library, a run in
    which nothing raises leaves in [favicon.ico] a container encoded from
    one frame: the 16x16 image loaded from [favicon-16x16.png].  The 32x32
    image is loaded from [favicon-32x32.png] and handed to the save call,
    and it is not embedded. *)
Theorem favicon_holds_one_image thumbnail encode w svg :
  pillow_ico thumbnail encode ->
  files w !! "icon.svg" = Some svg ->
  rasterizes svg -> packs svg -> renders_requested_size svg ->
  files (main w).2 !! "favicon.ico" = Some (encode [img_of svg 16])
  /\ im_size (img_of svg 16) = (16, 16)
  /\ exists png_16 png_32,
       files (main w).2 !! "favicon-16x16.png" = Some png_16
       /\ files (main w).2 !! "favicon-32x32.png" = Some png_32
       /\ image_decode png_16 = Return (img_of svg 16)
       /\ image_decode png_32 = Return (img_of svg 32).
Proof.
  intros Hpillow Hsvg Hall Hpack Hsize.
  assert (("favicon-16x16.png", 16) ∈ SIZES) as Hin16
    by (apply (bool_decide_unpack _); by vm_compute).
  assert (("favicon-32x32.png", 32) ∈ SIZES) as Hin32
    by (apply (bool_decide_unpack _); by vm_compute).
  destruct (img_of_size svg _ _ Hin16 Hall Hsize) as [Hdec16 Hdim16].
  destruct (img_of_size svg _ _ Hin32 Hall Hsize) as [Hdec32 _].
  rewrite (main_ok w svg Hsvg Hall Hpack). unfold after. cbn [snd files].
  rewrite main_ok_ico, (main_ok_png svg _ _ _ Hin16), (main_ok_png svg _ _ _ Hin32).
  repeat split; [|done|by eexists _, _].
  unfold ico_of. rewrite Hpillow. cbn [value].
  by rewrite (pillow_frames_of_save thumbnail _ _ Hdim16).
Qed.

(** C10, as the code has it.  The one save call of a run in which nothing
    raises is made on the 16x16 image with the 32x32 image appended, as the
    claim says; for this call Pillow's frame selection yields the 16x16
    image alone, so the container has a first image and no second one. *)
Theorem favicon_has_no_second_image thumbnail w svg :
  files w !! "icon.svg" = Some svg ->
  rasterizes svg -> packs svg -> renders_requested_size svg ->
  filter is_ImageSave (events_of main w)
  = [ImageSave (img_of svg 16) "favicon.ico" "ICO" [(16, 16); (32, 32)]
       [img_of svg 32]]
  /\ im_size (img_of svg 16) = (16, 16)
  /\ im_size (img_of svg 32) = (32, 32)
  /\ PIL.ico_frames thumbnail (img_of svg 16) [(16, 16); (32, 32)] [img_of svg 32]
     = [img_of svg 16].
Proof.
  intros Hsvg Hall Hpack Hsize.
  assert (("favicon-16x16.png", 16) ∈ SIZES) as Hin16
    by (apply (bool_decide_unpack _); by vm_compute).
  assert (("favicon-32x32.png", 32) ∈ SIZES) as Hin32
    by (apply (bool_decide_unpack _); by vm_compute).
  destruct (img_of_size svg _ _ Hin16 Hall Hsize) as [_ Hdim16].
  destruct (img_of_size svg _ _ Hin32 Hall Hsize) as [_ Hdim32].
  rewrite (events_of_after _ _ _ (main_ok w svg Hsvg Hall Hpack)).
  repeat split; [done|done|].
  by apply pillow_frames_of_save.
Qed.

End Pillow.

(** * Concrete runs *)

(** ** The sample platform meets the conditions *)

Lemma sample_rasterizes b rest : @rasterizes Sample.platform (b :: rest).
Proof. intros name size _. by eexists. Qed.

Lemma sample_packs b rest : @packs Sample.platform (b :: rest).
Proof. intros png_16 png_32 [= <-] [= <-]. by eexists _, _, _. Qed.

Lemma sample_renders_requested_size b rest :
  @renders_requested_size Sample.platform (b :: rest).
Proof.
  intros name size png Hin [= <-]. unfold SIZES in Hin.
  repeat (apply elem_of_cons in Hin as [[= -> ->]|Hin]; [by vm_compute|]).
  by apply elem_of_nil in Hin.
Qed.

Lemma sample_pillow_ico :
  @pillow_ico Sample.platform Sample.thumbnail Sample.ico_encode.
Proof. by intros im sizes append_images. Qed.

(** ** Runs that fail *)

(** C3 as stated fails: [icon.svg] exists, it is empty, the renderer raises
    at the first size, and the run has one rasterization call, no ICO save
    and no summary. *)
Lemma steps_cut_short_by_exception :
  is_Some (files Sample.bad_icon !! "icon.svg")
  /\ ~ all_steps_in_order (events_of (@main Sample.platform) Sample.bad_icon).
Proof.
  split; [by eexists|]. intros (img_16 & img_32 & Hsteps).
  vm_compute in Hsteps. discriminate Hsteps.
Qed.

(** C5 as stated fails: in the same run no summary is printed. *)
Lemma summary_lost_by_exception :
  is_Some (files Sample.bad_icon !! "icon.svg")
  /\ ~ ends_with_summary (events_of (@main Sample.platform) Sample.bad_icon).
Proof.
  split; [by eexists|]. intros [before Hend].
  assert (length (events_of (@main Sample.platform) Sample.bad_icon) = 2%nat)
    as Hlen by (by vm_compute).
  apply (f_equal length) in Hend. rewrite Hlen, length_app, length_fmap in Hend.
  change (length summary) with 8%nat in Hend. lia.
Qed.

(** ** The theorems at concrete inputs *)

Lemma main_writes_six_files_witness :
  files Sample.with_icon !! "icon.svg" = Some Sample.svg_doc
  /\ (@main Sample.platform Sample.with_icon).1 = Return tt
  /\ written_paths (events_of (@main Sample.platform) Sample.with_icon) = OUTPUTS
  /\ @png_size Sample.platform
       (default [] (files (@main Sample.platform Sample.with_icon).2
                      !! "apple-touch-icon.png"))
     = Some (180, 180).
Proof.
  split; [reflexivity|].
  destruct (@main_writes_six_files Sample.platform Sample.with_icon Sample.svg_doc
              eq_refl (sample_rasterizes _ _) (sample_packs _ _)
              (sample_renders_requested_size _ _))
    as (w' & Hrun & Hpaths & _ & _ & Hpngs).
  rewrite Hrun. split; [reflexivity|]. split; [exact Hpaths|].
  destruct (Hpngs "apple-touch-icon.png" 180) as (png & Hfile & _ & Hdims).
  - apply (bool_decide_unpack _). by vm_compute.
  - cbn [snd]. by rewrite Hfile.
Defined.

Lemma main_without_icon_witness :
  files Sample.no_icon !! "icon.svg" = None
  /\ @main Sample.platform Sample.no_icon
     = (Return tt, World ∅ Sample.installed ∅
                     [Stdout "Error: icon.svg not found!"]).
Proof.
  split; [reflexivity|].
  exact (proj1 (@main_without_icon Sample.platform Sample.no_icon eq_refl)).
Defined.

Lemma main_steps_in_order_witness :
  files Sample.with_icon !! "icon.svg" = Some Sample.svg_doc
  /\ all_steps_in_order (events_of (@main Sample.platform) Sample.with_icon).
Proof.
  split; [reflexivity|].
  exact (proj2 (@main_steps_in_order Sample.platform Sample.with_icon Sample.svg_doc
                  eq_refl (sample_rasterizes _ _) (sample_packs _ _))).
Defined.

Lemma main_prints_summary_witness :
  files Sample.with_icon !! "icon.svg" = Some Sample.svg_doc
  /\ ends_with_summary (events_of (@main Sample.platform) Sample.with_icon).
Proof.
  split; [reflexivity|].
  exact (proj1 (@main_prints_summary Sample.platform Sample.with_icon Sample.svg_doc
                  eq_refl (sample_rasterizes _ _) (sample_packs _ _))).
Defined.

Lemma main_rasterization_fails_witness :
  @svg_render Sample.limited Sample.svg_doc 180 180
  = Raise (OtherError "surface too large")
  /\ (@main Sample.limited Sample.with_icon).1
     = Raise (OtherError "surface too large")
  /\ written_paths (events_of (@main Sample.limited) Sample.with_icon)
     = ["favicon-16x16.png"; "favicon-32x32.png"]
  /\ files (@main Sample.limited Sample.with_icon).2 !! "apple-touch-icon.png"
     = None.
Proof.
  split; [reflexivity|].
  destruct (@main_rasterization_fails Sample.limited Sample.with_icon Sample.svg_doc
              [("favicon-16x16.png", 16); ("favicon-32x32.png", 32)]
              "apple-touch-icon.png" 180
              [("android-chrome-192x192.png", 192); ("android-chrome-512x512.png", 512)]
              (OtherError "surface too large") eq_refl eq_refl)
    as (Hres & _ & Hpaths & _ & Hkept & _).
  - repeat constructor; by eexists.
  - reflexivity.
  - split; [exact Hres|]. split; [exact Hpaths|].
    by rewrite Hkept.
Defined.

Lemma bootstrap_single_install_attempt_witness :
  @imports Sample.bare
  = (Raise (ImportError "cairosvg"), emit (Imported "cairosvg") Sample.bare)
  /\ filter is_OsSystem (events_of (@bootstrap Sample.offline) Sample.bare)
     = [OsSystem "pip3 install cairosvg pillow"]
  /\ (@script Sample.offline Sample.bare).1 = Raise (ImportError "cairosvg").
Proof.
  split; [reflexivity|].
  destruct (@bootstrap_single_install_attempt Sample.offline Sample.bare
              "cairosvg" (emit (Imported "cairosvg") Sample.bare) eq_refl)
    as (_ & Hone & _ & Hmissing).
  split; [exact Hone|]. apply Hmissing; [|reflexivity].
  apply (bool_decide_unpack _). by vm_compute.
Defined.

Lemma outputs_fixed_by_table_witness :
  files Sample.with_icon !! "icon.svg" <> files Sample.other_icon !! "icon.svg"
  /\ written_paths (events_of (@main Sample.platform) Sample.with_icon)
     = written_paths (events_of (@main Sample.platform) Sample.other_icon).
Proof.
  split; [discriminate|].
  exact (proj1 (@outputs_fixed_by_table Sample.platform
                  Sample.with_icon Sample.other_icon _ _ eq_refl eq_refl
                  (sample_rasterizes _ _) (sample_packs _ _)
                  (sample_rasterizes _ _) (sample_packs _ _))).
Defined.

Lemma main_writes_outputs_only_witness :
  ("notes.txt" ∉ OUTPUTS)
  /\ files (@main Sample.limited Sample.other_icon).2 !! "notes.txt"
     = Some [x68; x69].
Proof.
  assert ("notes.txt" ∉ OUTPUTS) as Hnotes
    by (apply (bool_decide_unpack _); by vm_compute).
  split; [exact Hnotes|].
  by rewrite (@main_writes_outputs_only Sample.limited Sample.other_icon
                "notes.txt" Hnotes).
Defined.

Lemma favicon_holds_one_image_witness :
  files Sample.with_icon !! "icon.svg" = Some Sample.svg_doc
  /\ files (@main Sample.platform Sample.with_icon).2 !! "favicon.ico"
     = Some (Sample.ico_encode [Image (16, 16) Sample.svg_doc]).
Proof.
  split; [reflexivity|].
  exact (proj1 (@favicon_holds_one_image Sample.platform
                  Sample.thumbnail Sample.ico_encode Sample.with_icon Sample.svg_doc
                  sample_pillow_ico eq_refl (sample_rasterizes _ _) (sample_packs _ _)
                  (sample_renders_requested_size _ _))).
Defined.

Lemma favicon_has_no_second_image_witness :
  files Sample.with_icon !! "icon.svg" = Some Sample.svg_doc
  /\ PIL.ico_frames Sample.thumbnail
       (Image (16, 16) Sample.svg_doc) [(16, 16); (32, 32)]
       [Image (32, 32) Sample.svg_doc]
     = [Image (16, 16) Sample.svg_doc].
Proof.
  split; [reflexivity|].
  exact (proj2 (proj2 (proj2
    (@favicon_has_no_second_image Sample.platform Sample.thumbnail
       Sample.with_icon Sample.svg_doc eq_refl
       (sample_rasterizes _ _) (sample_packs _ _)
       (sample_renders_requested_size _ _))))).
Defined.

(** * Further properties of the script's functions *)

(** ** Helper facts *)

Lemma imports_only_import w :
  exists now_loaded tail,
    (imports w).2 = World (files w) (site w) now_loaded (log w ++ tail)
    /\ Forall (fun e => exists name, e = Imported name) tail.
Proof.
  unfold imports, bind.
  destruct (import_run "cairosvg" w) as [loaded1 Hfirst].
  destruct (import_ "cairosvg" w) as [[[]|e] w1]; cbn [snd] in Hfirst; subst w1.
  - destruct (import_run "PIL"
                (World (files w) (site w) loaded1 (log w ++ [Imported "cairosvg"])))
      as [loaded2 Hsecond].
    exists loaded2, [Imported "cairosvg"; Imported "PIL"].
    rewrite Hsecond. cbn [files site log]. rewrite <- (assoc_L (++)).
    split; [done|]. repeat constructor; by eexists.
  - exists loaded1, [Imported "cairosvg"]. split; [done|].
    repeat constructor; by eexists.
Qed.


Lemma pillow_frames_from_larger thumbnail img_32 img_16 :
  im_size img_32 = (32, 32) -> im_size img_16 = (16, 16) ->
  PIL.ico_frames thumbnail img_32 ico_sizes [img_16] = [img_16; img_32].
Proof.
  destruct img_32 as [size_32 pixels_32], img_16 as [size_16 pixels_16].
  simpl. intros -> ->. by vm_compute.
Qed.

Section Further.
Context `{Platform}.


(** ** [generate_png_from_svg] on its own *)



(** ** [generate_ico] on its own *)

(** When one of the two input files is missing or is not an image, the
    exception of [Image.open] leaves the function: no save is attempted,
    nothing is printed, no file changes; and the second file is not even
    opened when the first one fails. *)
Theorem generate_ico_load_failure png_16_path png_32_path output_path w e :
  (Image_open png_16_path w).1 = Raise e
  \/ ((exists img_16, (Image_open png_16_path w).1 = Return img_16)
      /\ (Image_open png_32_path w).1 = Raise e) ->
  (generate_ico png_16_path png_32_path output_path w).1 = Raise e
  /\ files (generate_ico png_16_path png_32_path output_path w).2 = files w
  /\ Forall (fun ev => ev = ImageOpen png_16_path \/ ev = ImageOpen png_32_path)
       (events_of (generate_ico png_16_path png_32_path output_path) w)
  /\ ((Image_open png_16_path w).1 = Raise e ->
      events_of (generate_ico png_16_path png_32_path output_path) w
      = [ImageOpen png_16_path]).
Proof.
  intros Hload.
  rewrite (events_of_after _ _ _ (generate_ico_run _ _ _ w)), generate_ico_run.
  unfold Image_open in Hload |- *. cbn [fst] in Hload |- *.
  unfold ico_effect, after.
  destruct (files w !! png_16_path) as [data_16|];
    [destruct (image_decode data_16) as [img_16|e16]|].
  - destruct Hload as [Hload|[_ Hload]]; [discriminate Hload|].
    destruct (files w !! png_32_path) as [data_32|];
      [destruct (image_decode data_32) as [img_32|e32]; [discriminate Hload|]|];
      injection Hload as ->; cbn; (repeat split; [|discriminate]);
      repeat constructor; first [by left | by right].
  - destruct Hload as [Hload|[[img Himg] _]]; [|discriminate Himg].
    injection Hload as ->. cbn. repeat split. repeat constructor; by left.
  - destruct Hload as [Hload|[[img Himg] _]]; [|discriminate Himg].
    injection Hload as <-. cbn. repeat split. repeat constructor; by left.
Qed.

(** Whatever happens, [generate_ico] changes no path but its output path
    (its two inputs included, unless the output is one of them); and when
    it returns, the output holds what the ICO writer made of the first
    image with the fixed sizes 16x16 and 32x32 and the second image
    appended, whatever the dimensions of the two images are. *)
Theorem generate_ico_writes_output_only png_16_path png_32_path output_path w path :
  path <> output_path ->
  files (generate_ico png_16_path png_32_path output_path w).2 !! path
  = files w !! path
  /\ ((generate_ico png_16_path png_32_path output_path w).1 = Return tt ->
      exists img_16 img_32 data,
        (Image_open png_16_path w).1 = Return img_16
        /\ (Image_open png_32_path w).1 = Return img_32
        /\ ico_write img_16 [(16, 16); (32, 32)] [img_32] = Return data
        /\ files (generate_ico png_16_path png_32_path output_path w).2
             !! output_path = Some data).
Proof.
  intros Hpath. rewrite generate_ico_run. unfold after. cbn [fst snd files].
  split.
  - apply lookup_write_all_notin. by intros ->%ico_effect_paths.
  - unfold ico_effect, Image_open. cbn [fst].
    destruct (files w !! png_16_path) as [data_16|]; [|discriminate].
    destruct (image_decode data_16) as [img_16|]; [|discriminate].
    destruct (files w !! png_32_path) as [data_32|]; [|discriminate].
    destruct (image_decode data_32) as [img_32|]; [|discriminate].
    cbn zeta. destruct (ico_write img_16 ico_sizes [img_32]) as [data|] eqn:Hico;
      [|discriminate].
    intros _. exists img_16, img_32, data. repeat split; [exact Hico|].
    cbn. apply lookup_insert_eq.
Qed.

(** With Pillow's frame selection, the same function called with the
    larger image first embeds both images, the 16x16 one first. *)
Theorem generate_ico_from_larger_embeds_both thumbnail encode
    png_32_path png_16_path output_path w img_32 img_16 :
  pillow_ico thumbnail encode ->
  (Image_open png_32_path w).1 = Return img_32 ->
  (Image_open png_16_path w).1 = Return img_16 ->
  im_size img_32 = (32, 32) -> im_size img_16 = (16, 16) ->
  (generate_ico png_32_path png_16_path output_path w).1 = Return tt
  /\ files (generate_ico png_32_path png_16_path output_path w).2 !! output_path
     = Some (encode [img_16; img_32]).
Proof.
  intros Hpillow H32 H16 Hdim32 Hdim16. rewrite generate_ico_run.
  unfold Image_open in H32, H16. cbn [fst] in H32, H16.
  unfold ico_effect, after.
  destruct (files w !! png_32_path) as [data_32|]; [|discriminate].
  rewrite H32.
  destruct (files w !! png_16_path) as [data_16|]; [|discriminate].
  rewrite H16. cbn zeta.
  rewrite Hpillow, (pillow_frames_from_larger thumbnail _ _ Hdim32 Hdim16).
  cbn. split; [reflexivity|]. apply lookup_insert_eq.
Qed.

(** ** The imports and the script *)

(** When the imports of the [try] block do not raise [ImportError] (they
    return, or a module raises something else while it loads), the fallback
    does not run: nothing is printed, no installer is started, the outcome
    is that of the imports, and neither the files nor the installed modules
    change. *)
Theorem bootstrap_without_import_error w r w1 :
  imports w = (r, w1) ->
  (forall e, r = Raise e -> is_ImportError e = false) ->
  bootstrap w = (r, w1)
  /\ Forall (fun ev => exists name, ev = Imported name) (events_of bootstrap w)
  /\ files w1 = files w
  /\ site w1 = site w.
Proof.
  intros Himp Hother.
  assert (bootstrap w = (r, w1)) as Hboot.
  { unfold bootstrap, try_except_ImportError. rewrite Himp.
    destruct r as [[]|e]; [done|]. by rewrite (Hother e eq_refl). }
  destruct (imports_only_import w) as (l1 & tail1 & Hw1 & Htail).
  rewrite Himp in Hw1. cbn [snd] in Hw1.
  unfold events_of. rewrite Hboot. cbn [snd]. rewrite Hw1. cbn [log files site].
  rewrite drop_app_length. by repeat split.
Qed.


(** ** [main] when the packing step cannot load its inputs *)

(** When all five rasterizations return and [Image.open] then raises on
    one of the two small PNG files, [main] ends with that exception after
    the five PNG files have been written: they stay on disk with their
    renderings, [favicon.ico] is not touched, no save is attempted and no
    line of the summary is printed. *)
Theorem main_packing_load_fails w svg e :
  files w !! "icon.svg" = Some svg ->
  rasterizes svg ->
  image_decode (png_of svg 16) = Raise e
  \/ ((exists img_16, image_decode (png_of svg 16) = Return img_16)
      /\ image_decode (png_of svg 32) = Raise e) ->
  (main w).1 = Raise e
  /\ written_paths (events_of main w) = SIZES.*1
  /\ (forall filename size, (filename, size) ∈ SIZES ->
        files (main w).2 !! filename = Some (png_of svg size))
  /\ files (main w).2 !! "favicon.ico" = files w !! "favicon.ico"
  /\ filter is_ImageSave (events_of main w) = []
  /\ filter is_summary_line (events_of main w) = [].
Proof.
  intros Hsvg Hall Hload.
  assert (exists opened,
            (opened = [ImageOpen "favicon-16x16.png"]
             \/ opened = [ImageOpen "favicon-16x16.png"; ImageOpen "favicon-32x32.png"])
            /\ main w = after (Effect (Raise e) (png_writes svg SIZES)
                         (Stdout "Generating icons..." :: png_trace "icon.svg" SIZES
                          ++ opened)%list) w)
    as (opened & Hopened & Hrun).
  { rewrite main_run, Hsvg. unfold main_effect.
    rewrite loop_effect_ok by by apply rasterizes_Forall. cbn [writes].
    replace (written (png_writes svg SIZES) "favicon-16x16.png")
      with (Some (png_of svg 16)) by by vm_compute.
    replace (written (png_writes svg SIZES) "favicon-32x32.png")
      with (Some (png_of svg 32)) by by vm_compute.
    unfold ico_effect.
    destruct Hload as [H16|[[img_16 H16] H32]]; rewrite H16; [|rewrite H32];
      eexists; (split; [|reflexivity]); first [by left | by right]. }
  rewrite (events_of_after _ _ _ Hrun), Hrun. unfold after.
  cbn [fst snd files trace writes result].
  assert (NoDup (png_writes svg SIZES).*1) as Hdup
    by (rewrite png_writes_fst; apply SIZES_NoDup).
  split; [reflexivity|]. split; [|split; [|split]].
  - destruct Hopened as [-> | ->]; reflexivity.
  - intros filename size Hin. apply lookup_write_all_NoDup; [done|].
    by apply png_writes_elem.
  - apply lookup_write_all_notin. rewrite png_writes_fst.
    apply (bool_decide_unpack _). by vm_compute.
  - destruct Hopened as [-> | ->]; split; reflexivity.
Qed.

(** ** Stale outputs *)

(** After a run in which nothing raises, what the six output paths hold
    depends on [icon.svg] alone: whatever they held before, and whatever
    else is in the directory, has no influence. *)
Theorem main_replaces_stale_outputs w w' svg path :
  files w !! "icon.svg" = Some svg ->
  files w' !! "icon.svg" = Some svg ->
  rasterizes svg -> packs svg ->
  path ∈ OUTPUTS ->
  files (main w).2 !! path = files (main w').2 !! path
  /\ is_Some (files (main w).2 !! path).
Proof.
  intros Hsvg Hsvg' Hall Hpack Hpath.
  rewrite (main_ok w svg Hsvg Hall Hpack), (main_ok w' svg Hsvg' Hall Hpack).
  unfold after. cbn [snd files].
  rewrite <- main_ok_effect_paths with (svg := svg) in Hpath.
  rewrite !(lookup_write_all_in _ _ _ Hpath). split; [done|].
  by apply written_Some.
Qed.

End Further.

(** ** The further properties at concrete inputs *)



Lemma generate_ico_load_failure_witness :
  (@Image_open Sample.platform "favicon-16x16.png" Sample.with_icon).1
  = Raise (FileNotFoundError "favicon-16x16.png")
  /\ (@generate_ico Sample.platform "favicon-16x16.png" "favicon-32x32.png"
        "favicon.ico" Sample.with_icon).1
     = Raise (FileNotFoundError "favicon-16x16.png").
Proof.
  split; [reflexivity|].
  exact (proj1 (@generate_ico_load_failure Sample.platform
                  "favicon-16x16.png" "favicon-32x32.png" "favicon.ico"
                  Sample.with_icon (FileNotFoundError "favicon-16x16.png")
                  (or_introl eq_refl))).
Defined.

Lemma generate_ico_writes_output_only_witness :
  "favicon-16x16.png" <> "favicon.ico"
  /\ files (@generate_ico Sample.platform "favicon-16x16.png" "favicon-32x32.png"
              "favicon.ico" (@main Sample.platform Sample.with_icon).2).2
       !! "favicon-16x16.png"
     = files (@main Sample.platform Sample.with_icon).2 !! "favicon-16x16.png".
Proof.
  assert ("favicon-16x16.png" <> "favicon.ico") as Hne by discriminate.
  split; [exact Hne|].
  exact (proj1 (@generate_ico_writes_output_only Sample.platform
                  "favicon-16x16.png" "favicon-32x32.png" "favicon.ico"
                  (@main Sample.platform Sample.with_icon).2
                  "favicon-16x16.png" Hne)).
Defined.

Lemma generate_ico_from_larger_embeds_both_witness :
  (@Image_open Sample.platform "favicon-32x32.png"
     (@main Sample.platform Sample.with_icon).2).1
  = Return (Image (32, 32) Sample.svg_doc)
  /\ files (@generate_ico Sample.platform "favicon-32x32.png" "favicon-16x16.png"
              "favicon.ico" (@main Sample.platform Sample.with_icon).2).2
       !! "favicon.ico"
     = Some (Sample.ico_encode [Image (16, 16) Sample.svg_doc;
                                Image (32, 32) Sample.svg_doc]).
Proof.
  split; [by vm_compute|].
  exact (proj2 (@generate_ico_from_larger_embeds_both Sample.platform
                  Sample.thumbnail Sample.ico_encode
                  "favicon-32x32.png" "favicon-16x16.png" "favicon.ico"
                  (@main Sample.platform Sample.with_icon).2
                  (Image (32, 32) Sample.svg_doc) (Image (16, 16) Sample.svg_doc)
                  sample_pillow_ico
                  ltac:(by vm_compute) ltac:(by vm_compute) eq_refl eq_refl)).
Defined.

Lemma bootstrap_without_import_error_witness :
  (@imports Sample.with_icon).1 = Return tt
  /\ (@bootstrap Sample.platform Sample.with_icon).1 = Return tt
  /\ events_of (@bootstrap Sample.platform) Sample.with_icon
     = [Imported "cairosvg"; Imported "PIL"].
Proof.
  split; [reflexivity|].
  destruct (@bootstrap_without_import_error Sample.platform Sample.with_icon
              (Return tt) (@imports Sample.with_icon).2 eq_refl)
    as (Hboot & _).
  - intros e He. discriminate He.
  - rewrite Hboot. split; [reflexivity|]. by vm_compute.
Defined.

Lemma main_packing_load_fails_witness :
  @image_decode Sample.blind (@png_of Sample.blind Sample.svg_doc 16)
  = Raise (OtherError "cannot identify image file")
  /\ (@main Sample.blind Sample.with_icon).1
     = Raise (OtherError "cannot identify image file")
  /\ written_paths (events_of (@main Sample.blind) Sample.with_icon) = SIZES.*1.
Proof.
  split; [reflexivity|].
  destruct (@main_packing_load_fails Sample.blind Sample.with_icon Sample.svg_doc
              (OtherError "cannot identify image file") eq_refl)
    as (Hres & Hpaths & _).
  - intros name size _. by eexists.
  - by left.
  - by split.
Defined.

Lemma main_replaces_stale_outputs_witness :
  files Sample.stale !! "favicon.ico" <> files Sample.with_icon !! "favicon.ico"
  /\ files (@main Sample.platform Sample.stale).2 !! "favicon.ico"
     = files (@main Sample.platform Sample.with_icon).2 !! "favicon.ico".
Proof.
  split; [discriminate|].
  refine (proj1 (@main_replaces_stale_outputs Sample.platform
                   Sample.stale Sample.with_icon Sample.svg_doc "favicon.ico"
                   eq_refl eq_refl (sample_rasterizes _ _) (sample_packs _ _) _)).
  apply (bool_decide_unpack _). by vm_compute.
Defined.
